(** * Export service: query construction and result export

    A shallow embedding of [app.py]: the dynamic construction of the
    export query ([build_query_and_params]) and the [/export] endpoint
    that runs it and renders the rows as CSV or JSON.

    Python text is modelled by [string]; its characters are the 256
    values of [ascii], read as the code points U+0000 to U+00FF. *)

From Stdlib Require Import ZArith Ascii String List Lia.
From stdpp Require Import base gmap strings list fin_maps.

Local Open Scope string_scope.
Local Open Scope Z_scope.

(** ** Python text primitives *)

Module Py.

(** [bool(s)] for a [str]: only the empty text is falsy. *)
Definition truthy (s : string) : bool :=
  match s with
  | EmptyString => false
  | String _ _ => true
  end.

(** [str.isspace] on one character of the range U+0000 to U+00FF:
    TAB, LF, VT, FF, CR, the separators FS, GS, RS, US, the space,
    NEL (U+0085) and the no-break space (U+00A0). *)
Definition isspace (c : ascii) : bool :=
  let n := N_of_ascii c in
  ((9 <=? n) && (n <=? 13) || (28 <=? n) && (n <=? 32)
   || (n =? 133) || (n =? 160))%N.

Fixpoint lstrip (s : string) : string :=
  match s with
  | EmptyString => EmptyString
  | String c s' => if isspace c then lstrip s' else s
  end.

Fixpoint rstrip (s : string) : string :=
  match s with
  | EmptyString => EmptyString
  | String c s' =>
      match rstrip s' with
      | EmptyString => if isspace c then EmptyString else String c EmptyString
      | r => String c r
      end
  end.

(** [s.strip()] *)
Definition strip (s : string) : string := rstrip (lstrip s).

(** [s.split(sep)] for a separator of one character: every occurrence
    of [sep] cuts, and the result is never the empty list. *)
Fixpoint split (sep : ascii) (s : string) : list string :=
  match s with
  | EmptyString => [EmptyString]
  | String c s' =>
      if Ascii.eqb c sep then EmptyString :: split sep s'
      else match split sep s' with
           | w :: ws => String c w :: ws
           | [] => [String c EmptyString]
           end
  end.

(** [sep.join(l)] *)
Fixpoint join (sep : string) (l : list string) : string :=
  match l with
  | [] => EmptyString
  | [x] => x
  | x :: rest => x +:+ sep +:+ join sep rest
  end.

(** [c.lower()] on one character of the range U+0000 to U+00FF: the
    letters A to Z, and the Latin-1 capitals U+00C0 to U+00DE apart from
    the multiplication sign U+00D7, move up by 32. *)
Definition lower_char (c : ascii) : ascii :=
  let n := N_of_ascii c in
  if ((65 <=? n) && (n <=? 90)
      || (192 <=? n) && (n <=? 222) && negb (n =? 215))%N
  then ascii_of_N (n + 32) else c.

(** [s.lower()] *)
Fixpoint lower (s : string) : string :=
  match s with
  | EmptyString => EmptyString
  | String c s' => String (lower_char c) (lower s')
  end.

(** [k in d] for a dict *)
Definition contains {V} (d : gmap string V) (k : string) : bool :=
  match d !! k with
  | Some _ => true
  | None => false
  end.

(** [d.get(k, default)] *)
Definition get_default {V} (d : gmap string V) (k : string) (default : V) : V :=
  match d !! k with
  | Some v => v
  | None => default
  end.

End Py.

(** ** Exceptions and the builder's local state *)

Inductive exn : Type :=
| KeyError (key : string).

Inductive result (A : Type) : Type :=
| Ok (a : A)
| Raise (e : exn).
Arguments Ok {A} a.
Arguments Raise {A} e.

(** [d[k]]: raises [KeyError] on a missing key. *)
Definition getitem {V} (d : gmap string V) (k : string) : result V :=
  match d !! k with
  | Some v => Ok v
  | None => Raise (KeyError k)
  end.

(** A bound parameter is a text (a filter value) or an integer (a
    category code). *)
Inductive param : Type :=
| PStr (s : string)
| PInt (n : Z).

(** The two lists that [build_query_and_params] creates and that its
    inner function [add_in_clause] appends to. *)
Record locals : Type := Locals {
  filters : list string;
  params : list param
}.

(** Computations that read and update the locals and may raise. *)
Definition M (A : Type) : Type := locals -> result (A * locals).

Definition ret {A} (a : A) : M A := fun st => Ok (a, st).

Definition bind {A B} (m : M A) (k : A -> M B) : M B :=
  fun st =>
    match m st with
    | Ok (a, st') => k a st'
    | Raise e => Raise e
    end.

Definition lift {A} (r : result A) : M A :=
  fun st =>
    match r with
    | Ok a => Ok (a, st)
    | Raise e => Raise e
    end.

Definition get_locals : M locals := fun st => Ok (st, st).

(** [filters.append(f)] *)
Definition filters_append (f : string) : M unit :=
  fun st => Ok (tt, Locals (filters st ++ [f]) (params st)).

(** [params.extend(ps)] *)
Definition params_extend (ps : list param) : M unit :=
  fun st => Ok (tt, Locals (filters st) (params st ++ ps)).

Notation "x <- m ;; k" := (bind m (fun x => k))
  (at level 100, m at level 99, k at level 200, right associativity).
Notation "m ;;; k" := (bind m (fun _ => k))
  (at level 100, k at level 200, right associativity).

(** [[f(x) for x in l]] where [f] may raise. *)
Fixpoint mapM {A B} (f : A -> result B) (l : list A) : result (list B) :=
  match l with
  | [] => Ok []
  | x :: l' =>
      match f x with
      | Ok y =>
          match mapM f l' with
          | Ok ys => Ok (y :: ys)
          | Raise e => Raise e
          end
      | Raise e => Raise e
      end
  end.

(** ** The query builder *)

(** The text assigned to [base_query] before any filter is added. *)
Definition base_query : string :=
"
        SELECT
            d.district_name    AS district,
            b.block            AS block,
            c.cluster          AS cluster,
            s.udise_id         AS udise_id,
            s.school_name      AS school_name,
            sm.school_management AS school_management,
            CASE s.school_assam_category_id
                WHEN 1 THEN 'LP'
                WHEN 2 THEN 'UP'
                WHEN 3 THEN 'HS'
                WHEN 4 THEN 'HSS'
                ELSE NULL
            END AS school_category,
            st.total_students,
            st.total_students_present,
            sf.total_teaching_staff,
            sf.total_non_teaching_staff,
            sf.total_teaching_staff_present,
            sf.total_non_teaching_staff_present
        FROM core_db.tbl_rp_school_registration_2025_2026 s
        LEFT JOIN ref_db.district d ON s.district_id = d.district_id
        LEFT JOIN ref_db.blocks b ON s.block_id = b.block_id
        LEFT JOIN ref_db.cluster c ON s.cluster_id = c.cluster_id
        LEFT JOIN ref_db.school_management sm ON s.school_management_id = sm.school_management_id

        LEFT JOIN (
            SELECT
                s.udise_id,
                IFNULL(SUM(registered_students), 0) AS total_students,
                IFNULL(SUM(present), 0) AS total_students_present
            FROM core_db.tbl_rp_students_summery_today_2025_2026 s
            WHERE s.report_date = CURDATE()
            GROUP BY s.udise_id
        ) st ON s.udise_id = st.udise_id

        LEFT JOIN (
            SELECT
                s.udise_id,
                IFNULL(SUM(CASE WHEN staff_type_id = 1 THEN total_staff END), 0) AS total_teaching_staff,
                IFNULL(SUM(CASE WHEN staff_type_id != 1 THEN total_staff END), 0) AS total_non_teaching_staff,
                IFNULL(SUM(CASE WHEN staff_type_id = 1 THEN present END), 0) AS total_teaching_staff_present,
                IFNULL(SUM(CASE WHEN staff_type_id != 1 THEN present END), 0) AS total_non_teaching_staff_present
            FROM core_db.tbl_rp_staff_registration_2025_2026 s
            WHERE s.report_date = CURDATE()
            GROUP BY s.udise_id
        ) sf ON s.udise_id = sf.udise_id

        WHERE s.report_date = CURDATE()
    ".

(** The text appended last. *)
Definition order_by_clause : string :=
" 
        ORDER BY s.district_id, s.block_id, s.cluster_id, s.udise_id
    ".

(** [[v.strip() for v in s.split(",") if v.strip()]] *)
Definition split_values (s : string) : list string :=
  map Py.strip (List.filter (fun v => Py.truthy (Py.strip v)) (Py.split "," s)).

(** [", ".join(["%s"] * n)] *)
Definition placeholders (n : nat) : string :=
  Py.join ", " (replicate n "%s").

(** [f"{field} IN ({placeholders})"] *)
Definition in_predicate (field : string) (n : nat) : string :=
  field +:+ " IN (" +:+ placeholders n +:+ ")".

Definition nonempty {A} (l : list A) : bool :=
  match l with
  | [] => false
  | _ :: _ => true
  end.

Section Builder.

Variable query_params : gmap string string.

Definition add_in_clause (field param_name : string) : M unit :=
  present <- (if Py.contains query_params param_name
              then v <- lift (getitem query_params param_name) ;; ret (Py.truthy v)
              else ret false) ;;
  if (present : bool) then
    raw <- lift (getitem query_params param_name) ;;
    let values := split_values raw in
    if nonempty values then
      filters_append (in_predicate field (length values)) ;;;
      params_extend (map PStr values)
    else ret tt
  else ret tt.

Definition mappings : gmap string Z :=
  {[ "LP" := 1; "UP" := 2; "HS" := 3; "HSS" := 4 ]}.

(** The block that handles [school_type]. *)
Definition add_school_type : M unit :=
  present <- (if Py.contains query_params "school_type"
              then v <- lift (getitem query_params "school_type") ;; ret (Py.truthy v)
              else ret false) ;;
  if (present : bool) then
    raw <- lift (getitem query_params "school_type") ;;
    let types := split_values raw in
    ids <- lift (mapM (getitem mappings)
                   (List.filter (Py.contains mappings) types)) ;;
    if nonempty ids then
      filters_append (in_predicate "s.school_assam_category_id" (length ids)) ;;;
      params_extend (map PInt ids)
    else ret tt
  else ret tt.

Definition build_query_and_params : result (string * list param) :=
  let body : M (string * list param) :=
    add_in_clause "d.district_name" "district" ;;;
    add_in_clause "b.block" "block" ;;;
    add_in_clause "c.cluster" "cluster" ;;;
    add_in_clause "sm.school_management" "school_management" ;;;
    add_in_clause "g.geography" "geography" ;;;
    add_school_type ;;;
    st <- get_locals ;;
    let base_query1 :=
      if nonempty (filters st)
      then base_query +:+ " AND " +:+ Py.join " AND " (filters st)
      else base_query in
    ret (base_query1 +:+ order_by_clause, params st) in
  match body (Locals [] []) with
  | Ok (r, _) => Ok r
  | Raise e => Raise e
  end.

End Builder.

(** ** What the builder computes, key by key *)

(** The values a key contributes: the trimmed non-blank segments of its
    text, none when the key is missing. *)
Definition filter_values (q : gmap string string) (k : string) : list string :=
  match q !! k with
  | Some v => split_values v
  | None => []
  end.

(** The category codes that the [school_type] tokens map to. *)
Definition school_type_ids (q : gmap string string) : list Z :=
  omap (fun t => mappings !! t) (filter_values q "school_type").

(** The predicate a key appends for [n] kept values: none for [n = 0]. *)
Definition predicate_of (field : string) (n : nat) : list string :=
  match n with
  | O => []
  | S _ => [in_predicate field n]
  end.

(** The final text for a list of predicates. *)
Definition query_text_of (fs : list string) : string :=
  (if nonempty fs
   then base_query +:+ " AND " +:+ Py.join " AND " fs
   else base_query) +:+ order_by_clause.

(** The keys served by [add_in_clause], with their columns, in call order. *)
Definition in_clause_keys : list (string * string) :=
  [("d.district_name", "district"); ("b.block", "block");
   ("c.cluster", "cluster"); ("sm.school_management", "school_management");
   ("g.geography", "geography")].

Definition in_clause_predicates (q : gmap string string) : list string :=
  flat_map (fun '(field, k) => predicate_of field (length (filter_values q k)))
           in_clause_keys.

Definition in_clause_params (q : gmap string string) : list param :=
  flat_map (fun '(_, k) => map PStr (filter_values q k)) in_clause_keys.

Definition all_predicates (q : gmap string string) : list string :=
  in_clause_predicates q
  ++ predicate_of "s.school_assam_category_id" (length (school_type_ids q)).

Definition all_params (q : gmap string string) : list param :=
  in_clause_params q ++ map PInt (school_type_ids q).

(** The two components of the result. *)
Definition query_text (q : gmap string string) : result string :=
  match build_query_and_params q with
  | Ok (text, _) => Ok text
  | Raise e => Raise e
  end.

Definition query_params_list (q : gmap string string) : result (list param) :=
  match build_query_and_params q with
  | Ok (_, ps) => Ok ps
  | Raise e => Raise e
  end.

(** ** The select list's category label *)

(** The text of the [CASE] expression that the database evaluates for
    the column [school_category], as it stands in [base_query]. *)
Definition school_category_sql : string :=
"CASE s.school_assam_category_id
                WHEN 1 THEN 'LP'
                WHEN 2 THEN 'UP'
                WHEN 3 THEN 'HS'
                WHEN 4 THEN 'HSS'
                ELSE NULL
            END AS school_category".

(** ** The export endpoint *)

(** An exception raised by [mysql.connector.connect], with its text
    [str(e)]: an instance of [mysql.connector.Error], or another
    exception. *)
Inductive connect_exception : Type :=
| ConnectorError (text : string)
| OtherException (text : string).

(** The database client and the data-frame library, which the endpoint
    calls and this development does not look into. A call that can fail
    returns its exception on the left: for [read_sql] and [close], the
    text of the exception. *)
Record Backend : Type := {
  Connection : Type;
  DataFrame : Type;
  Records : Type;
  mysql_connect : connect_exception + Connection;
  read_sql : string -> Connection -> list param -> string + DataFrame;
  conn_close : Connection -> string + unit;
  to_dict_records : DataFrame -> Records;
  to_csv : DataFrame -> string
}.

Record Config : Type := {
  API_KEY_REQUIRED : bool;
  API_KEY : string
}.

Record Request : Type := {
  query_params : gmap string string;
  headers : gmap string string
}.

(** What the endpoint returns: the pair of an error body and a status,
    the list of records, or the streamed CSV attachment. *)
Inductive Response (B : Backend) : Type :=
| ErrorReply (body : list (string * string)) (status : Z)
| RecordsReply (records : Records B)
| StreamingResponse (chunks : list string) (media_type : string)
    (response_headers : list (string * string)).
Arguments ErrorReply {B} body status.
Arguments RecordsReply {B} records.
Arguments StreamingResponse {B} chunks media_type response_headers.

Section Endpoint.

Variable B : Backend.
Variable C : Config.

(** Only a [mysql.connector.Error] is caught and raised again with the
    prefix; any other exception goes on as it is. *)
Definition get_connection : string + Connection B :=
  match mysql_connect B with
  | inr conn => inr conn
  | inl (ConnectorError e) => inl ("Failed to connect to database: " +:+ e)
  | inl (OtherException e) => inl e
  end.

(** The body of the [try] block: connect, read, close. *)
Definition run_query (sql : string) (ps : list param) : string + DataFrame B :=
  match get_connection with
  | inl e => inl e
  | inr conn =>
      match read_sql B sql conn ps with
      | inl e => inl e
      | inr df =>
          match conn_close B conn with
          | inl e => inl e
          | inr _ => inr df
          end
      end
  end.

(** [a or b] on optional texts: [a] when it is a non-empty text. *)
Definition py_or (a b : option string) : option string :=
  match a with
  | Some s => if Py.truthy s then Some s else b
  | None => b
  end.

(** [key != API_KEY] *)
Definition key_differs (key : option string) : bool :=
  match key with
  | Some k => negb (String.eqb k (API_KEY C))
  | None => true
  end.

Definition export (request : Request) : result (Response B) :=
  let q := query_params request in
  if API_KEY_REQUIRED C
     && key_differs (py_or (q !! "apikey") (headers request !! "x-api-key"))
  then Ok (ErrorReply [("error", "invalid API key")] 401)
  else
    match build_query_and_params q with
    | Raise e => Raise e
    | Ok (sql, ps) =>
        let out_format := Py.lower (Py.get_default q "format" "csv") in
        match run_query sql ps with
        | inl e => Ok (ErrorReply [("error", "database error"); ("detail", e)] 500)
        | inr df =>
            if String.eqb out_format "json"
            then Ok (RecordsReply (to_dict_records B df))
            else Ok (StreamingResponse [to_csv B df] "text/csv"
                       [("Content-Disposition", "attachment; filename=export.csv")])
        end
    end.

End Endpoint.

(** ** Readings of the specification, for comparison *)

(** Only white space, as [str.isspace] sees it (the empty text included). *)
Fixpoint whitespace_only (s : string) : bool :=
  match s with
  | EmptyString => true
  | String c s' => Py.isspace c && whitespace_only s'
  end.

(** A key that is missing, or whose every comma-separated segment is
    white space only. *)
Definition blank_key (q : gmap string string) (k : string) : Prop :=
  match q !! k with
  | None => True
  | Some v => Forall (fun seg => whitespace_only seg = true) (Py.split "," v)
  end.

Definition recognized_keys : list string :=
  ["district"; "block"; "cluster"; "school_management"; "geography";
   "school_type"].

(** Duplicates removed, the first occurrence kept. *)
Fixpoint dedup_first (seen l : list string) : list string :=
  match l with
  | [] => []
  | x :: l' =>
      if bool_decide (x ∈ seen) then dedup_first seen l'
      else x :: dedup_first (x :: seen) l'
  end.

(** The values of a key as the specification words them: blank segments
    and duplicates removed. *)
Definition spec_values (v : string) : list string :=
  dedup_first [] (split_values v).

(** The parameter order as the specification words it: district, block,
    cluster, management, then the category codes. *)
Definition spec_params (q : gmap string string) : list param :=
  map PStr (filter_values q "district")
  ++ map PStr (filter_values q "block")
  ++ map PStr (filter_values q "cluster")
  ++ map PStr (filter_values q "school_management")
  ++ map PInt (school_type_ids q).

(** The number of non-blank segments of a key. *)
Definition segments (q : gmap string string) (k : string) : nat :=
  length (filter_values q k).

(** A backend on which queries succeed with a frame of two rows. *)
Definition sample_backend : Backend := {|
  Connection := unit;
  DataFrame := list (list string);
  Records := list (list string);
  mysql_connect := inr tt;
  read_sql := fun _ _ _ => inr [["Kamrup"; "LP"]; ["Nalbari"; "HS"]];
  conn_close := fun _ => inr tt;
  to_dict_records := fun df => df;
  to_csv := fun df => Py.join "
" (map (Py.join ",") (["district"; "school_category"] :: df))
|}.

Definition open_config : Config :=
  {| API_KEY_REQUIRED := false; API_KEY := "<YOUR_API_KEY>" |}.

(** The request with its [format] parameter set to [fmt]. *)
Definition with_format (fmt : string) (request : Request) : Request :=
  {| query_params := <["format" := fmt]> (query_params request);
     headers := headers request |}.

Definition bare_request : Request :=
  {| query_params := ∅; headers := ∅ |}.

(** ** Measures of a result, and the endpoint at a given format *)

(** The length of the query text of a result. *)
Definition text_length (r : result string) : N :=
  match r with
  | Ok t => N.of_nat (String.length t)
  | Raise _ => 0%N
  end.

(** The number of parameters of a result. *)
Definition params_count (r : result (string * list param)) : nat :=
  match r with
  | Ok (_, ps) => length ps
  | Raise _ => O
  end.

(** What the endpoint does on a request once [out_format] is known. *)
Definition export_as (B : Backend) (C : Config) (request : Request)
    (out_format : string) : result (Response B) :=
  let q := query_params request in
  if API_KEY_REQUIRED C
     && key_differs C (py_or (q !! "apikey") (headers request !! "x-api-key"))
  then Ok (ErrorReply [("error", "invalid API key")] 401)
  else
    match build_query_and_params q with
    | Raise e => Raise e
    | Ok (sql, ps) =>
        match run_query B sql ps with
        | inl e => Ok (ErrorReply [("error", "database error"); ("detail", e)] 500)
        | inr df =>
            if String.eqb out_format "json"
            then Ok (RecordsReply (to_dict_records B df))
            else Ok (StreamingResponse [to_csv B df] "text/csv"
                       [("Content-Disposition", "attachment; filename=export.csv")])
        end
    end.

(** ** Configuration read from the environment *)

(** The two module constants that the endpoint reads, from
    [os.getenv(name, default)] on the process environment. *)
Definition load_config (environ : gmap string string) : Config :=
  {| API_KEY_REQUIRED :=
       String.eqb
         (Py.lower (Py.get_default environ "API_KEY_REQUIRED" "false")) "true";
     API_KEY := Py.get_default environ "EXPORT_API_KEY" "<YOUR_API_KEY>" |}.

(** ** Vocabulary for the further properties *)

(** The number of occurrences of a character in a text. *)
Fixpoint count_char (c : ascii) (s : string) : nat :=
  match s with
  | EmptyString => O
  | String x s' => (if Ascii.eqb x c then 1 else 0)%nat + count_char c s'
  end.

(** The character 32 places below: the capital of a small letter. *)
Definition upper_of (d : ascii) : ascii := ascii_of_N (N_of_ascii d - 32).

Definition is_small_letter (d : ascii) : bool :=
  let n := N_of_ascii d in ((97 <=? n) && (n <=? 122))%N.

(** [s] spells [t] up to the case of its letters: character by
    character, [s] has the character of [t] or its capital. *)
Fixpoint spelling_of (t s : string) : Prop :=
  match t, s with
  | EmptyString, EmptyString => True
  | String d t', String c s' => (c = d ∨ c = upper_of d) ∧ spelling_of t' s'
  | _, _ => False
  end.

(** The request with the query parameter [k] set to [v]. *)
Definition with_query_param (k v : string) (request : Request) : Request :=
  {| query_params := <[k := v]> (query_params request);
     headers := headers request |}.

(** The configuration with the key check switched off. *)
Definition without_key_check (C : Config) : Config :=
  {| API_KEY_REQUIRED := false; API_KEY := API_KEY C |}.

(** A parameter that is a trimmed, non-empty text without a comma, or
    a category code from 1 to 4. *)
Definition clean_param (p : param) : Prop :=
  match p with
  | PStr s => s ≠ "" ∧ Py.strip s = s ∧ count_char "," s = O
  | PInt n => 1 <= n <= 4
  end.

(** The 401 and 500 replies of the endpoint. *)
Definition invalid_key_reply {B : Backend} : Response B :=
  ErrorReply [("error", "invalid API key")] 401.

Definition database_error_reply {B : Backend} (detail : string) : Response B :=
  ErrorReply [("error", "database error"); ("detail", detail)] 500.

(** The CSV attachment built from a frame. *)
Definition csv_reply {B : Backend} (df : DataFrame B) : Response B :=
  StreamingResponse [to_csv B df] "text/csv"
    [("Content-Disposition", "attachment; filename=export.csv")].

(** Only commas and white space. *)
Fixpoint only_commas_and_spaces (s : string) : bool :=
  match s with
  | EmptyString => true
  | String c s' => (Ascii.eqb c "," || Py.isspace c) && only_commas_and_spaces s'
  end.

(** Small letters only. *)
Fixpoint all_small_letters (t : string) : bool :=
  match t with
  | EmptyString => true
  | String d t' => is_small_letter d && all_small_letters t'
  end.

(** Where a backend can fail: at the connection, with a connector
    error or with another exception, at the read or at the close. *)
Inductive fault : Type :=
| ConnectFails
| ConnectBreaks
| ReadFails
| CloseFails.

(** The sample backend, failing at the given place with the given
    message. *)
Definition faulty_backend (f : fault) (message : string) : Backend := {|
  Connection := unit;
  DataFrame := list (list string);
  Records := list (list string);
  mysql_connect :=
    match f with
    | ConnectFails => inl (ConnectorError message)
    | ConnectBreaks => inl (OtherException message)
    | _ => inr tt
    end;
  read_sql := fun sql conn ps =>
    match f with
    | ReadFails => inl message
    | _ => read_sql sample_backend sql conn ps
    end;
  conn_close := fun _ =>
    match f with CloseFails => inl message | _ => inr tt end;
  to_dict_records := to_dict_records sample_backend;
  to_csv := to_csv sample_backend
|}.

(** A configuration with the key check on. *)
Definition keyed_config : Config :=
  {| API_KEY_REQUIRED := true; API_KEY := "s3cret" |}.

(** ** Lemmas on the steps of the builder *)

Lemma nonempty_predicate_of {A} field (l : list A) :
  (if nonempty l then [in_predicate field (length l)] else [])
  = predicate_of field (length l).
Proof. destruct l; reflexivity. Qed.

Lemma split_values_empty : split_values "" = [].
Proof. reflexivity. Qed.

Lemma locals_app_nil st :
  Locals (filters st ++ []) (params st ++ []) = st.
Proof. destruct st; simpl. by rewrite !app_nil_r. Qed.

Lemma add_in_clause_run q field k st :
  add_in_clause q field k st
  = Ok (tt, Locals
              (filters st ++ predicate_of field (length (filter_values q k)))
              (params st ++ map PStr (filter_values q k))).
Proof.
  unfold add_in_clause, bind, lift, ret, getitem, Py.contains, filter_values.
  destruct (q !! k) as [v|]; simpl.
  - destruct v as [|c v]; simpl.
    + by rewrite locals_app_nil.
    + destruct (split_values (String c v)) as [|x xs]; simpl.
      * by rewrite locals_app_nil.
      * reflexivity.
  - by rewrite locals_app_nil.
Qed.

(** Indexing [mappings] after the membership test never raises. *)
Lemma mapM_getitem_guarded {V} (d : gmap string V) (l : list string) :
  mapM (getitem d) (List.filter (Py.contains d) l)
  = Ok (omap (fun t => d !! t) l).
Proof.
  induction l as [|t l IH]; simpl; [reflexivity|].
  unfold Py.contains at 1. destruct (d !! t) as [v|] eqn:Ht; simpl.
  - unfold getitem at 1. rewrite Ht, IH. reflexivity.
  - exact IH.
Qed.

Lemma add_school_type_run q st :
  add_school_type q st
  = Ok (tt, Locals
              (filters st ++ predicate_of "s.school_assam_category_id"
                                          (length (school_type_ids q)))
              (params st ++ map PInt (school_type_ids q))).
Proof.
  unfold add_school_type, school_type_ids, filter_values.
  unfold bind at 1. unfold lift, ret, getitem, Py.contains.
  destruct (q !! "school_type") as [v|]; simpl.
  - destruct v as [|c v]; simpl.
    + by rewrite locals_app_nil.
    + pose proof (mapM_getitem_guarded mappings (split_values (String c v))) as Hids.
      unfold getitem, Py.contains in Hids. unfold bind. rewrite Hids.
      destruct (omap _ (split_values (String c v))) as [|x xs]; simpl.
      * by rewrite locals_app_nil.
      * reflexivity.
  - by rewrite locals_app_nil.
Qed.

(** The whole function, in closed form: it never raises, the predicates
    and the parameters are those of the keys in call order. *)
Lemma build_query_and_params_closed_form q :
  build_query_and_params q
  = Ok (query_text_of (all_predicates q), all_params q).
Proof.
  unfold build_query_and_params, bind.
  rewrite !add_in_clause_run. simpl filters. simpl params.
  rewrite add_school_type_run. simpl.
  unfold query_text_of, all_predicates, all_params,
    in_clause_predicates, in_clause_params. simpl.
  rewrite !app_nil_r, <- !app_assoc. reflexivity.
Qed.

(** ** The builder on concrete requests *)

Example split_keeps_empty_segments :
  Py.split "," "a,,b," = ["a"; ""; "b"; ""] ∧ Py.split "," "" = [""].
Proof. split; reflexivity. Qed.

Example strip_trims_both_ends :
  Py.strip "  Kamrup Metro	 " = "Kamrup Metro".
Proof. reflexivity. Qed.

Example no_filter :
  build_query_and_params ∅ = Ok (base_query +:+ order_by_clause, []).
Proof. vm_compute. reflexivity. Qed.

Example district_and_school_type :
  build_query_and_params
    {[ "district" := "Kamrup, Nalbari"; "school_type" := "HS,HSS" ]}
  = Ok (base_query
        +:+ " AND d.district_name IN (%s, %s)"
        +:+ " AND s.school_assam_category_id IN (%s, %s)"
        +:+ order_by_clause,
        [PStr "Kamrup"; PStr "Nalbari"; PInt 3; PInt 4]).
Proof. vm_compute. reflexivity. Qed.

(** ** The result depends on the six filter keys only *)

Lemma filter_values_delete_ne (q : gmap string string) k k' :
  k ≠ k' -> filter_values (delete k q) k' = filter_values q k'.
Proof. intros Hne. unfold filter_values. by rewrite lookup_delete_ne. Qed.

Lemma filter_values_delete_eq (q : gmap string string) k :
  filter_values (delete k q) k = [].
Proof. unfold filter_values. by rewrite lookup_delete_eq. Qed.

Lemma filter_values_insert_ne (q : gmap string string) k k' v :
  k ≠ k' -> filter_values (<[k := v]> q) k' = filter_values q k'.
Proof. intros Hne. unfold filter_values. by rewrite lookup_insert_ne. Qed.

Lemma filter_values_singleton_eq k v :
  filter_values {[ k := v ]} k = split_values v.
Proof. unfold filter_values. by rewrite lookup_singleton_eq. Qed.

Lemma filter_values_singleton_ne k k' v :
  k ≠ k' -> filter_values {[ k := v ]} k' = [].
Proof. intros Hne. unfold filter_values. by rewrite lookup_singleton_ne. Qed.

Lemma map_PStr_nil l : map PStr l = [] -> l = [].
Proof. by destruct l. Qed.

Lemma query_text_closed_form q :
  query_text q = Ok (query_text_of (all_predicates q)).
Proof. unfold query_text. by rewrite build_query_and_params_closed_form. Qed.

Lemma query_params_list_closed_form q :
  query_params_list q = Ok (all_params q).
Proof. unfold query_params_list. by rewrite build_query_and_params_closed_form. Qed.

(** ** The claims *)

(** C1, as stated, fails: two maps that set the same key with one
    non-blank segment each, [school_type=LP] and [school_type=XX], get
    different query texts, since only the first token has a code. *)
Lemma C1_counterexample :
  dom ({[ "school_type" := "LP" ]} : gmap string string)
  = dom ({[ "school_type" := "XX" ]} : gmap string string)
  ∧ (∀ k, segments {[ "school_type" := "LP" ]} k
          = segments {[ "school_type" := "XX" ]} k)
  ∧ query_text {[ "school_type" := "LP" ]}
    ≠ query_text {[ "school_type" := "XX" ]}.
Proof.
  split; [by rewrite !dom_singleton_L|]. split.
  - intros k. unfold segments.
    destruct (decide ("school_type" = k)) as [<-|Hne].
    + by rewrite !filter_values_singleton_eq.
    + by rewrite !filter_values_singleton_ne.
  - intros Heq. apply (f_equal text_length) in Heq.
    vm_compute in Heq. discriminate Heq.
Qed.

(** C1 (amended): the query text depends on the filter map only through
    the number of non-blank segments of each of the keys district, block,
    cluster, school_management and geography, and the number of
    school_type tokens that have a category code. Two maps that agree on
    these numbers get the same query text, whatever the values are. *)
Theorem C1_query_text_independent_of_values (m1 m2 : gmap string string) :
  (∀ k, k ∈ ["district"; "block"; "cluster"; "school_management"; "geography"] ->
        segments m1 k = segments m2 k) ->
  length (school_type_ids m1) = length (school_type_ids m2) ->
  ∃ text, query_text m1 = Ok text ∧ query_text m2 = Ok text.
Proof.
  intros Hseg Hids. exists (query_text_of (all_predicates m1)).
  split; [apply query_text_closed_form|].
  rewrite query_text_closed_form. do 2 f_equal.
  unfold all_predicates, in_clause_predicates, segments in *. simpl.
  rewrite Hids.
  rewrite (Hseg "district"), (Hseg "block"), (Hseg "cluster"),
    (Hseg "school_management"), (Hseg "geography");
    [reflexivity | set_solver..].
Qed.

(** Two maps with two district values and one coded token each. *)
Lemma C1_query_text_independent_of_values_witness :
  ∃ text,
    query_text {[ "district" := "Kamrup, Nalbari"; "school_type" := "HS,XX" ]}
    = Ok text
    ∧ query_text {[ "district" := "x' OR '1'='1,;--"; "school_type" := "LP" ]}
      = Ok text.
Proof.
  apply C1_query_text_independent_of_values.
  - intros k Hk.
    repeat (apply elem_of_cons in Hk as [->|Hk]; [vm_compute; reflexivity|]).
    by apply elem_of_nil in Hk.
  - vm_compute. reflexivity.
Defined.

(** C2, as stated, fails: the values of [geography] are parameters too,
    bound between those of school_management and the category codes. *)
Lemma C2_counterexample :
  query_params_list {[ "geography" := "Hills"; "school_type" := "LP" ]}
  = Ok [PStr "Hills"; PInt 1]
  ∧ spec_params {[ "geography" := "Hills"; "school_type" := "LP" ]} = [PInt 1]
  ∧ query_params_list {[ "geography" := "Hills"; "school_type" := "LP" ]}
    ≠ Ok (spec_params {[ "geography" := "Hills"; "school_type" := "LP" ]}).
Proof.
  split; [vm_compute; reflexivity|].
  split; [vm_compute; reflexivity|].
  intros Heq. vm_compute in Heq. discriminate Heq.
Qed.

(** C2 (amended): the parameter list is, in this order, the district
    values, the block values, the cluster values, the school_management
    values, the geography values, then the school_type codes, with nothing
    else in between; the predicates of the query text come in the same
    order, each with as many placeholders as its key has values. *)
Theorem C2_params_in_call_order (q : gmap string string) :
  build_query_and_params q
  = Ok (query_text_of
          (predicate_of "d.district_name" (length (filter_values q "district"))
           ++ predicate_of "b.block" (length (filter_values q "block"))
           ++ predicate_of "c.cluster" (length (filter_values q "cluster"))
           ++ predicate_of "sm.school_management"
                (length (filter_values q "school_management"))
           ++ predicate_of "g.geography" (length (filter_values q "geography"))
           ++ predicate_of "s.school_assam_category_id"
                (length (school_type_ids q))),
        (map PStr (filter_values q "district")
         ++ map PStr (filter_values q "block")
         ++ map PStr (filter_values q "cluster")
         ++ map PStr (filter_values q "school_management")
         ++ map PStr (filter_values q "geography")
         ++ map PInt (school_type_ids q))%list).
Proof.
  rewrite build_query_and_params_closed_form.
  unfold all_predicates, all_params, in_clause_predicates, in_clause_params.
  simpl. by rewrite !app_nil_r, <- !app_assoc.
Qed.

Lemma school_type_ids_delete_ne (q : gmap string string) k :
  k ≠ "school_type" -> school_type_ids (delete k q) = school_type_ids q.
Proof.
  intros Hne. unfold school_type_ids. by rewrite filter_values_delete_ne.
Qed.

Lemma school_type_ids_insert_ne (q : gmap string string) k v :
  k ≠ "school_type" -> school_type_ids (<[k := v]> q) = school_type_ids q.
Proof.
  intros Hne. unfold school_type_ids. by rewrite filter_values_insert_ne.
Qed.

Lemma school_type_ids_singleton_ne k v :
  k ≠ "school_type" -> school_type_ids {[ k := v ]} = [].
Proof.
  intros Hne. unfold school_type_ids. by rewrite filter_values_singleton_ne.
Qed.

Ltac expand_builder :=
  rewrite ?build_query_and_params_closed_form;
  unfold all_predicates, all_params, in_clause_predicates, in_clause_params;
  simpl flat_map; rewrite ?app_nil_r.

(** C3, as stated, fails: a [geography] value is not ignored, it adds a
    predicate on [g.geography] and a parameter. *)
Lemma C3_counterexample :
  build_query_and_params {[ "geography" := "Hills" ]}
  ≠ build_query_and_params (delete "geography" {[ "geography" := "Hills" ]})
  ∧ query_params_list {[ "geography" := "Hills" ]} = Ok [PStr "Hills"]
  ∧ query_params_list (delete "geography" {[ "geography" := "Hills" ]}) = Ok [].
Proof.
  split; [|split; vm_compute; reflexivity].
  intros Heq. apply (f_equal params_count) in Heq.
  vm_compute in Heq. discriminate Heq.
Qed.

(** C3 (amended): [geography] is served like the other multi-valued
    keys. The result equals that of the same map without the key exactly
    when the key is missing, empty or made of blank segments only;
    otherwise the map with the key has, in addition, the predicate
    [g.geography IN (...)] and the trimmed geography values among its
    parameters. *)
Theorem C3_geography_adds_a_predicate (q : gmap string string) :
  (build_query_and_params q = build_query_and_params (delete "geography" q)
   ↔ filter_values q "geography" = [])
  ∧ ∃ fs1 fs2 ps1 ps2,
      build_query_and_params (delete "geography" q)
      = Ok (query_text_of (fs1 ++ fs2), (ps1 ++ ps2)%list)
      ∧ build_query_and_params q
        = Ok (query_text_of
                (fs1 ++ predicate_of "g.geography" (segments q "geography") ++ fs2),
              (ps1 ++ map PStr (filter_values q "geography") ++ ps2)%list).
Proof.
  assert (Hdel : build_query_and_params (delete "geography" q)
    = Ok (query_text_of
            ((predicate_of "d.district_name" (length (filter_values q "district"))
              ++ predicate_of "b.block" (length (filter_values q "block"))
              ++ predicate_of "c.cluster" (length (filter_values q "cluster"))
              ++ predicate_of "sm.school_management"
                   (length (filter_values q "school_management")))
             ++ predicate_of "s.school_assam_category_id"
                  (length (school_type_ids q))),
          ((map PStr (filter_values q "district")
            ++ map PStr (filter_values q "block")
            ++ map PStr (filter_values q "cluster")
            ++ map PStr (filter_values q "school_management"))
           ++ map PInt (school_type_ids q))%list)).
  { expand_builder.
    rewrite !filter_values_delete_ne, filter_values_delete_eq,
      school_type_ids_delete_ne by done.
    simpl. by rewrite <- !app_assoc. }
  assert (Hq : build_query_and_params q
    = Ok (query_text_of
            ((predicate_of "d.district_name" (length (filter_values q "district"))
              ++ predicate_of "b.block" (length (filter_values q "block"))
              ++ predicate_of "c.cluster" (length (filter_values q "cluster"))
              ++ predicate_of "sm.school_management"
                   (length (filter_values q "school_management")))
             ++ predicate_of "g.geography" (segments q "geography")
             ++ predicate_of "s.school_assam_category_id"
                  (length (school_type_ids q))),
          ((map PStr (filter_values q "district")
            ++ map PStr (filter_values q "block")
            ++ map PStr (filter_values q "cluster")
            ++ map PStr (filter_values q "school_management"))
           ++ map PStr (filter_values q "geography")
           ++ map PInt (school_type_ids q))%list)).
  { expand_builder. unfold segments. by rewrite <- !app_assoc. }
  split; [|eauto 10].
  rewrite Hq, Hdel. split.
  - intros Heq. apply (f_equal params_count) in Heq. simpl in Heq.
    rewrite !length_app, !length_map in Heq.
    apply map_PStr_nil, nil_length_inv.
    rewrite length_map. lia.
  - intros Hnil. unfold segments. rewrite Hnil. reflexivity.
Qed.

(** A [geography] of blank segments changes nothing. *)
Lemma C3_geography_adds_a_predicate_witness :
  build_query_and_params {[ "district" := "Kamrup"; "geography" := " , " ]}
  = build_query_and_params
      (delete "geography" {[ "district" := "Kamrup"; "geography" := " , " ]}).
Proof.
  apply (proj2 (proj1 (C3_geography_adds_a_predicate
           {[ "district" := "Kamrup"; "geography" := " , " ]}))).
  vm_compute. reflexivity.
Defined.

(** ** Splitting and trimming *)

Lemma split_values_sublist_of (l : list string) :
  sublist (map Py.strip (List.filter (fun v => Py.truthy (Py.strip v)) l))
          (map Py.strip l).
Proof.
  induction l as [|x l IH]; simpl; [constructor|].
  destruct (Py.truthy (Py.strip x)); simpl.
  - by apply sublist_skip.
  - by apply sublist_cons.
Qed.

Lemma truthy_false s : Py.truthy s = false -> s = "".
Proof. by destruct s. Qed.

Lemma truthy_true s : Py.truthy s = true -> s ≠ "".
Proof. by destruct s. Qed.

Lemma split_values_no_blank_of (l : list string) :
  "" ∉ map Py.strip (List.filter (fun v => Py.truthy (Py.strip v)) l).
Proof.
  induction l as [|x l IH]; simpl; [apply not_elem_of_nil|].
  destruct (Py.truthy (Py.strip x)) eqn:Hx; simpl; [|exact IH].
  apply not_elem_of_cons. split; [|exact IH].
  apply truthy_true in Hx. congruence.
Qed.

Lemma split_values_count_of (l : list string) (s : string) :
  s ≠ "" ->
  count_occ string_dec
    (map Py.strip (List.filter (fun v => Py.truthy (Py.strip v)) l)) s
  = count_occ string_dec (map Py.strip l) s.
Proof.
  intros Hs. induction l as [|x l IH]; simpl; [reflexivity|].
  destruct (Py.truthy (Py.strip x)) eqn:Hx; simpl.
  - destruct (string_dec (Py.strip x) s); by rewrite IH.
  - apply truthy_false in Hx. rewrite Hx.
    destruct (string_dec "" s) as [He|_]; [congruence|exact IH].
Qed.

Lemma build_query_and_params_singleton field k v :
  (field, k) ∈ in_clause_keys ->
  build_query_and_params {[ k := v ]}
  = Ok (query_text_of (predicate_of field (length (split_values v))),
        map PStr (split_values v)).
Proof.
  intros Hin. unfold in_clause_keys in Hin.
  repeat (apply elem_of_cons in Hin as [[= -> ->]|Hin];
    [expand_builder;
     rewrite ?filter_values_singleton_eq, ?filter_values_singleton_ne,
       ?school_type_ids_singleton_ne by done;
     simpl; by rewrite ?app_nil_r|]).
  by apply elem_of_nil in Hin.
Qed.

(** C4, as stated, fails: a repeated value is kept, [district=A,B,A]
    binds three parameters and builds three placeholders. *)
Lemma C4_counterexample :
  spec_values "A,B,A" = ["A"; "B"]
  ∧ build_query_and_params {[ "district" := "A,B,A" ]}
    = Ok (base_query +:+ " AND d.district_name IN (%s, %s, %s)"
          +:+ order_by_clause,
          [PStr "A"; PStr "B"; PStr "A"])
  ∧ build_query_and_params {[ "district" := "A,B,A" ]}
    ≠ Ok (query_text_of
            (predicate_of "d.district_name" (length (spec_values "A,B,A"))),
          map PStr (spec_values "A,B,A")).
Proof.
  split; [vm_compute; reflexivity|].
  split; [vm_compute; reflexivity|].
  intros Heq. apply (f_equal params_count) in Heq.
  vm_compute in Heq. discriminate Heq.
Qed.

(** C4 (amended): for every comma-separated value, the blank segments
    are removed and the other trimmed segments are kept in their order,
    repeated values included: the kept values are a subsequence of the
    trimmed segments, none is empty, and every non-empty segment occurs
    among them as often as among the segments. For each of the keys
    district, block, cluster, school_management and geography, the
    predicate has one placeholder per kept value and the parameter list is
    the kept values. This holds in every filter map, whatever its other
    keys: the predicates and the parameters of the result are those of
    the kept values of each key, in call order. *)
Theorem C4_blank_segments_removed_order_kept (v : string) :
  sublist (split_values v) (map Py.strip (Py.split "," v))
  ∧ ("" ∉ split_values v)
  ∧ (∀ s, s ≠ "" ->
       count_occ string_dec (split_values v) s
       = count_occ string_dec (map Py.strip (Py.split "," v)) s)
  ∧ Forall (fun '(field, k) =>
       build_query_and_params {[ k := v ]}
       = Ok (query_text_of (predicate_of field (length (split_values v))),
             map PStr (split_values v)))
     in_clause_keys
  ∧ (∀ (q : gmap string string) k, q !! k = Some v ->
       filter_values q k = split_values v)
  ∧ (∀ q : gmap string string,
       build_query_and_params q
       = Ok (query_text_of
               (predicate_of "d.district_name"
                  (length (filter_values q "district"))
                ++ predicate_of "b.block" (length (filter_values q "block"))
                ++ predicate_of "c.cluster" (length (filter_values q "cluster"))
                ++ predicate_of "sm.school_management"
                     (length (filter_values q "school_management"))
                ++ predicate_of "g.geography"
                     (length (filter_values q "geography"))
                ++ predicate_of "s.school_assam_category_id"
                     (length (school_type_ids q))),
             (map PStr (filter_values q "district")
              ++ map PStr (filter_values q "block")
              ++ map PStr (filter_values q "cluster")
              ++ map PStr (filter_values q "school_management")
              ++ map PStr (filter_values q "geography")
              ++ map PInt (school_type_ids q))%list))
  ∧ build_query_and_params
      {[ "district" := " A, ,B,,A ,"; "block" := "Hajo , Hajo";
         "format" := "json" ]}
    = Ok (base_query
          +:+ " AND d.district_name IN (%s, %s, %s) AND b.block IN (%s, %s)"
          +:+ order_by_clause,
          [PStr "A"; PStr "B"; PStr "A"; PStr "Hajo"; PStr "Hajo"]).
Proof.
  split; [apply split_values_sublist_of|].
  split; [apply split_values_no_blank_of|].
  split; [intros s Hs; by apply split_values_count_of|].
  split.
  { apply Forall_forall. intros [field k] Hin.
    by apply build_query_and_params_singleton. }
  split; [intros q k Hk; unfold filter_values; by rewrite Hk|].
  split; [|vm_compute; reflexivity].
  intros q. expand_builder. by rewrite <- !app_assoc.
Qed.

(** The value [A] is kept twice. *)
Lemma C4_blank_segments_removed_order_kept_witness :
  count_occ string_dec (split_values " A, ,B,,A ,") "A"
  = count_occ string_dec (map Py.strip (Py.split "," " A, ,B,,A ,")) "A".
Proof.
  apply (proj1 (proj2 (proj2
           (C4_blank_segments_removed_order_kept " A, ,B,,A ,")))).
  discriminate.
Defined.

Lemma string_app_assoc (a b c : string) : (a +:+ b) +:+ c = a +:+ (b +:+ c).
Proof.
  induction a as [|x a IH]; [reflexivity|].
  change (String x ((a +:+ b) +:+ c) = String x (a +:+ (b +:+ c))).
  by rewrite IH.
Qed.

(** Every query text is the base query followed by the added text. *)
Lemma query_text_of_prefix (fs : list string) :
  ∃ rest, query_text_of fs = base_query +:+ rest.
Proof.
  unfold query_text_of. destruct (nonempty fs).
  - rewrite string_app_assoc. eauto.
  - eauto.
Qed.

Lemma lstrip_whitespace_only s : whitespace_only s = true -> Py.lstrip s = "".
Proof.
  induction s as [|c s IH]; simpl; [reflexivity|].
  intros [Hc Hs]%andb_true_iff. rewrite Hc. by apply IH.
Qed.

Lemma lstrip_empty s : Py.lstrip s = "" -> whitespace_only s = true.
Proof.
  induction s as [|c s IH]; simpl; [reflexivity|].
  destruct (Py.isspace c); simpl; [exact IH|discriminate].
Qed.

Lemma lstrip_head s c r : Py.lstrip s = String c r -> Py.isspace c = false.
Proof.
  induction s as [|x s IH]; simpl; [discriminate|].
  destruct (Py.isspace x) eqn:Hx; [exact IH|].
  intros [= <- <-]. exact Hx.
Qed.

Lemma rstrip_head c r : Py.isspace c = false -> Py.rstrip (String c r) ≠ "".
Proof.
  intros Hc. simpl. rewrite Hc. by destruct (Py.rstrip r).
Qed.

(** Trimming leaves nothing exactly when the text is white space only. *)
Lemma strip_empty_iff s : Py.strip s = "" ↔ whitespace_only s = true.
Proof.
  unfold Py.strip. split.
  - intros Hs. apply lstrip_empty.
    destruct (Py.lstrip s) as [|c r] eqn:Hl; [reflexivity|].
    apply lstrip_head in Hl. by apply rstrip_head with (r := r) in Hl.
  - intros Hs. by rewrite lstrip_whitespace_only.
Qed.

Lemma split_values_blank_of (l : list string) :
  Forall (fun seg => whitespace_only seg = true) l ->
  map Py.strip (List.filter (fun v => Py.truthy (Py.strip v)) l) = [].
Proof.
  induction 1 as [|seg l Hseg _ IH]; simpl; [reflexivity|].
  apply strip_empty_iff in Hseg. rewrite Hseg. exact IH.
Qed.

Lemma blank_key_values (q : gmap string string) k :
  blank_key q k -> filter_values q k = [].
Proof.
  unfold blank_key, filter_values. destruct (q !! k) as [v|]; [|reflexivity].
  apply split_values_blank_of.
Qed.

Lemma mappings_lookup t n :
  mappings !! t = Some n
  ↔ (t, n) ∈ [("LP", 1); ("UP", 2); ("HS", 3); ("HSS", 4)].
Proof.
  unfold mappings.
  rewrite !lookup_insert_Some, lookup_singleton_Some, !elem_of_cons, elem_of_nil.
  split.
  - intros [[<- <-]|[_ [[<- <-]|[_ [[<- <-]|[_ [<- <-]]]]]]]; auto 10.
  - intros [[= -> ->]|[[= -> ->]|[[= -> ->]|[[= -> ->]|[]]]]].
    + by left.
    + right. split; [done|]. by left.
    + right. split; [done|]. right. split; [done|]. by left.
    + right. split; [done|]. right. split; [done|]. by right.
Qed.

Lemma lstrip_app_whitespace (a s : string) :
  whitespace_only a = true -> Py.lstrip (a +:+ s) = Py.lstrip s.
Proof.
  induction a as [|c a IH]; [reflexivity|].
  change (whitespace_only (String c a) = true ->
          Py.lstrip (String c (a +:+ s)) = Py.lstrip s).
  simpl. intros [Hc Ha]%andb_true_iff. rewrite Hc. by apply IH.
Qed.

Lemma rstrip_whitespace (b : string) :
  whitespace_only b = true -> Py.rstrip b = "".
Proof.
  induction b as [|c b IH]; [reflexivity|].
  simpl. intros [Hc Hb]%andb_true_iff. by rewrite (IH Hb), Hc.
Qed.

Lemma rstrip_app_whitespace (s b : string) :
  whitespace_only b = true -> Py.rstrip (s +:+ b) = Py.rstrip s.
Proof.
  intros Hb. induction s as [|c s IH].
  - simpl. by apply rstrip_whitespace.
  - change (Py.rstrip (String c (s +:+ b)) = Py.rstrip (String c s)).
    cbn [Py.rstrip]. by rewrite IH.
Qed.

(** What trimming leaves does not start with white space. *)
Lemma strip_head (s : string) c r :
  Py.strip s = String c r -> Py.isspace c = false.
Proof.
  unfold Py.strip. destruct (Py.lstrip s) as [|d l] eqn:Hl; [discriminate|].
  apply lstrip_head in Hl. cbn [Py.rstrip].
  destruct (Py.rstrip l); rewrite ?Hl; by intros [= <- _].
Qed.

(** A text that trimming leaves as it is, is what trimming leaves of
    the text with white space put before and after it. *)
Lemma strip_padded (a t b : string) :
  whitespace_only a = true -> whitespace_only b = true ->
  Py.strip t = t -> Py.strip (a +:+ t +:+ b) = t.
Proof.
  intros Ha Hb Ht. unfold Py.strip.
  rewrite lstrip_app_whitespace by done.
  destruct t as [|c t].
  - change ("" +:+ b) with b.
    by rewrite (lstrip_whitespace_only b Hb).
  - pose proof (strip_head _ _ _ Ht) as Hc.
    assert (Hl : ∀ r, Py.lstrip (String c r) = String c r).
    { intros r. cbn [Py.lstrip]. by rewrite Hc. }
    change (String c t +:+ b) with (String c (t +:+ b)).
    rewrite Hl. change (String c (t +:+ b)) with (String c t +:+ b).
    rewrite rstrip_app_whitespace by done.
    unfold Py.strip in Ht. by rewrite Hl in Ht.
Qed.

Lemma omap_kept_segments {A} (f : string -> option A) (l : list string) :
  f "" = None ->
  omap f (map Py.strip (List.filter (fun v => Py.truthy (Py.strip v)) l))
  = omap f (map Py.strip l).
Proof.
  intros Hf. induction l as [|x l IH]; [reflexivity|].
  cbn [List.filter map].
  change (Py.strip x :: map Py.strip l)
    with ([Py.strip x] ++ map Py.strip l)%list.
  rewrite omap_app, <- IH.
  destruct (Py.truthy (Py.strip x)) eqn:Hx; cbn [map].
  - change (Py.strip x :: ?l) with ([Py.strip x] ++ l)%list.
    by rewrite omap_app.
  - apply truthy_false in Hx. rewrite Hx. cbn. by rewrite Hf.
Qed.

(** C5: each comma-separated segment of the [school_type] value is
    trimmed and looked up in the table LP=1, UP=2, HS=3, HSS=4 with exact
    case; a coded token with white space around it trims to the token;
    the segments without a code are dropped and no error is raised; and
    the codes follow the other parameters in input order, with a
    predicate on [s.school_assam_category_id] of as many placeholders
    when there is at least one code. [LP,UP,XX] gives the codes 1 and 2,
    also with white space around the tokens; [ZZ], and tokens in another
    case, give no predicate and no parameter. *)
Theorem C5_school_type_codes (q : gmap string string) (v : string) :
  q !! "school_type" = Some v ->
  (∀ t n, mappings !! t = Some n
          ↔ (t, n) ∈ [("LP", 1); ("UP", 2); ("HS", 3); ("HSS", 4)])
  ∧ build_query_and_params q
    = Ok (query_text_of
            (in_clause_predicates q
             ++ predicate_of "s.school_assam_category_id"
                  (length (omap (fun t => mappings !! t)
                             (map Py.strip (Py.split "," v))))),
          (in_clause_params q
           ++ map PInt (omap (fun t => mappings !! t)
                          (map Py.strip (Py.split "," v))))%list)
  ∧ (∀ a b t n, whitespace_only a = true -> whitespace_only b = true ->
       mappings !! t = Some n -> Py.strip (a +:+ t +:+ b) = t)
  ∧ build_query_and_params {[ "school_type" := "LP,UP,XX" ]}
    = Ok (base_query +:+ " AND s.school_assam_category_id IN (%s, %s)"
          +:+ order_by_clause,
          [PInt 1; PInt 2])
  ∧ build_query_and_params {[ "school_type" := " LP ,	UP,XX , ,HSS  " ]}
    = Ok (base_query +:+ " AND s.school_assam_category_id IN (%s, %s, %s)"
          +:+ order_by_clause,
          [PInt 1; PInt 2; PInt 4])
  ∧ build_query_and_params {[ "school_type" := "ZZ" ]}
    = Ok (base_query +:+ order_by_clause, [])
  ∧ build_query_and_params {[ "school_type" := "lp, Hss" ]}
    = Ok (base_query +:+ order_by_clause, []).
Proof.
  intros Hv. split; [apply mappings_lookup|]. split.
  - rewrite build_query_and_params_closed_form.
    unfold all_predicates, all_params, school_type_ids, filter_values.
    rewrite Hv. unfold split_values.
    by rewrite omap_kept_segments.
  - split; [|repeat split; vm_compute; reflexivity].
    intros a b t n Ha Hb Ht. apply strip_padded; [done..|].
    apply mappings_lookup in Ht.
    repeat (apply elem_of_cons in Ht as [[= -> ->]|Ht]; [reflexivity|]).
    by apply elem_of_nil in Ht.
Qed.

(** Tokens with spaces, in lower case and empty, next to a district. *)
Lemma C5_school_type_codes_witness :
  build_query_and_params
    {[ "district" := "Kamrup"; "school_type" := " HS ,hs,,LP" ]}
  = Ok (base_query
        +:+ " AND d.district_name IN (%s)"
        +:+ " AND s.school_assam_category_id IN (%s, %s)"
        +:+ order_by_clause,
        [PStr "Kamrup"; PInt 3; PInt 1]).
Proof.
  refine (eq_trans
            (proj1 (proj2
               (C5_school_type_codes
                  {[ "district" := "Kamrup"; "school_type" := " HS ,hs,,LP" ]}
                  " HS ,hs,,LP" _))) _).
  - reflexivity.
  - vm_compute. reflexivity.
Defined.

(** C6: the builder returns a result for every map of texts, it never
    raises; and when each recognized key is missing, empty or made of
    white-space or empty segments only, the result is the base query
    followed by the ORDER BY text, with no predicate added, and the empty
    parameter list. *)
Theorem C6_total_and_blank_is_absent (q : gmap string string) :
  (∃ text ps, build_query_and_params q = Ok (text, ps))
  ∧ ((∀ k, k ∈ recognized_keys -> blank_key q k) ->
     build_query_and_params q = Ok (base_query +:+ order_by_clause, [])).
Proof.
  split; [rewrite build_query_and_params_closed_form; eauto|].
  intros Hblank. expand_builder. unfold school_type_ids.
  rewrite !blank_key_values by (apply Hblank; set_solver).
  reflexivity.
Qed.

(** Blank filters next to a key that is no filter. *)
Lemma C6_total_and_blank_is_absent_witness :
  build_query_and_params
    {[ "district" := " , ,"; "block" := ""; "school_type" := ","; "format" := "json" ]}
  = Ok (base_query +:+ order_by_clause, []).
Proof.
  apply (proj2 (C6_total_and_blank_is_absent
           {[ "district" := " , ,"; "block" := ""; "school_type" := ",";
              "format" := "json" ]})).
  intros k Hk. unfold recognized_keys in Hk.
  repeat (apply elem_of_cons in Hk as [->|Hk];
    [vm_compute; repeat constructor|]).
  by apply elem_of_nil in Hk.
Defined.

(** C7: whatever the filters, the query text ends with the ORDER BY on
    the id columns of district, block, cluster and school (udise), in
    this order and with no DESC, hence ascending. *)
Theorem C7_query_ends_with_order_by (q : gmap string string) :
  ∃ body ps,
    build_query_and_params q
    = Ok (body +:+ " 
        ORDER BY s.district_id, s.block_id, s.cluster_id, s.udise_id
    ", ps).
Proof.
  rewrite build_query_and_params_closed_form. unfold query_text_of. eauto.
Qed.

(** The category expression is part of the base query, with which every
    built query starts. *)
Lemma base_query_has_category_case :
  String.substring 302 225 base_query = school_category_sql
  ∧ (∀ q, ∃ rest ps, build_query_and_params q = Ok (base_query +:+ rest, ps)).
Proof.
  split; [vm_compute; reflexivity|].
  intros q. rewrite build_query_and_params_closed_form.
  destruct (query_text_of_prefix (all_predicates q)) as [rest ->]. eauto.
Qed.

(** ** The export endpoint *)

Lemma build_query_and_params_with_format (q : gmap string string) fmt :
  build_query_and_params (<["format" := fmt]> q) = build_query_and_params q.
Proof.
  expand_builder.
  by rewrite !filter_values_insert_ne, school_type_ids_insert_ne.
Qed.

Section EndpointFacts.

Variable B : Backend.
Variable C : Config.

(** The endpoint reads the [format] parameter through its lower-case
    form only. *)
Lemma export_with_format request fmt :
  export B C (with_format fmt request)
  = export_as B C request (Py.lower fmt).
Proof.
  unfold export, export_as, with_format, Py.get_default. simpl.
  rewrite lookup_insert_eq, lookup_insert_ne by done.
  by rewrite build_query_and_params_with_format.
Qed.


End EndpointFacts.




(** C10: the format value is compared in lower case. Two requests that
    differ only in the case of [format] get the same reply; when the key
    check passes and the query succeeds with a frame, [json], [JSON] and
    [Json] return the records of the frame, [csv] and [CSV] the CSV
    attachment. *)
Theorem C10_format_is_case_insensitive
    (B : Backend) (C : Config) (request : Request)
    (sql : string) (ps : list param) (df : DataFrame B) :
  API_KEY_REQUIRED C
  && key_differs C (py_or (query_params request !! "apikey")
                          (headers request !! "x-api-key")) = false ->
  build_query_and_params (query_params request) = Ok (sql, ps) ->
  run_query B sql ps = inr df ->
  (∀ f1 f2, Py.lower f1 = Py.lower f2 ->
     export B C (with_format f1 request) = export B C (with_format f2 request))
  ∧ (∀ fmt, fmt ∈ ["json"; "JSON"; "Json"] ->
       export B C (with_format fmt request)
       = Ok (RecordsReply (to_dict_records B df)))
  ∧ (∀ fmt, fmt ∈ ["csv"; "CSV"] ->
       export B C (with_format fmt request)
       = Ok (StreamingResponse [to_csv B df] "text/csv"
               [("Content-Disposition", "attachment; filename=export.csv")])).
Proof.
  intros Hkey Hsql Hdf. split_and!.
  - intros f1 f2 Hlow. by rewrite !export_with_format, Hlow.
  - intros fmt Hfmt. rewrite export_with_format. unfold export_as.
    rewrite Hkey, Hsql, Hdf.
    repeat (apply elem_of_cons in Hfmt as [->|Hfmt]; [reflexivity|]).
    by apply elem_of_nil in Hfmt.
  - intros fmt Hfmt. rewrite export_with_format. unfold export_as.
    rewrite Hkey, Hsql, Hdf.
    repeat (apply elem_of_cons in Hfmt as [->|Hfmt]; [reflexivity|]).
    by apply elem_of_nil in Hfmt.
Qed.

(** The format [Json] on the sample backend. *)
Lemma C10_format_is_case_insensitive_witness :
  export sample_backend open_config (with_format "Json" bare_request)
  = Ok (@RecordsReply sample_backend [["Kamrup"; "LP"]; ["Nalbari"; "HS"]]).
Proof.
  refine (proj1 (proj2 (C10_format_is_case_insensitive
            sample_backend open_config bare_request
            (query_text_of []) [] [["Kamrup"; "LP"]; ["Nalbari"; "HS"]]
            _ _ _)) "Json" _).
  - reflexivity.
  - vm_compute. reflexivity.
  - reflexivity.
  - apply list_elem_of_In. simpl. auto.
Defined.

(** ** Further properties of the builder *)

(** The result is read off the six recognized keys and nothing else. *)
Lemma build_query_and_params_ext (q1 q2 : gmap string string) :
  (∀ k, k ∈ recognized_keys -> filter_values q1 k = filter_values q2 k) ->
  build_query_and_params q1 = build_query_and_params q2.
Proof.
  intros Hext. expand_builder. unfold school_type_ids.
  rewrite (Hext "district"), (Hext "block"), (Hext "cluster"),
    (Hext "school_management"), (Hext "geography"), (Hext "school_type");
    [reflexivity | set_solver..].
Qed.

(** X1: a query parameter that is none of the six filter keys (a key in
    another case, [format], [apikey], anything else) changes neither the
    query text nor the parameters, whether it is added or removed. *)
Theorem unrecognized_key_is_ignored (q : gmap string string) (k v : string) :
  k ∉ recognized_keys ->
  build_query_and_params (<[k := v]> q) = build_query_and_params q
  ∧ build_query_and_params (delete k q) = build_query_and_params q.
Proof.
  intros Hk. split; apply build_query_and_params_ext; intros k' Hk'.
  - apply filter_values_insert_ne. by intros ->.
  - apply filter_values_delete_ne. by intros ->.
Qed.

Lemma unrecognized_key_is_ignored_witness :
  build_query_and_params
    (<["District" := "Kamrup"]> {[ "block" := "Hajo" ]})
  = build_query_and_params {[ "block" := "Hajo" ]}.
Proof.
  refine (proj1 (unrecognized_key_is_ignored
                   {[ "block" := "Hajo" ]} "District" "Kamrup" _)).
  unfold recognized_keys. rewrite !not_elem_of_cons.
  repeat split; [discriminate..|apply not_elem_of_nil].
Defined.

Lemma only_commas_and_spaces_split (v : string) :
  only_commas_and_spaces v = true ->
  Forall (fun seg => whitespace_only seg = true) (Py.split "," v).
Proof.
  induction v as [|c v IH]; simpl; [by repeat constructor|].
  intros [Hc Hv]%andb_true_iff. specialize (IH Hv).
  destruct (Ascii.eqb c ",") eqn:Hsep; simpl in Hc.
  - by constructor.
  - destruct (Py.split "," v) as [|w ws]; simpl.
    + repeat constructor. simpl. by rewrite Hc.
    + inversion IH as [|? ? Hw Hws]; subst. constructor; [|exact Hws].
      simpl. by rewrite Hc, Hw.
Qed.

Lemma only_commas_and_spaces_values (v : string) :
  only_commas_and_spaces v = true -> split_values v = [].
Proof.
  intros Hv. by apply split_values_blank_of, only_commas_and_spaces_split.
Qed.

(** X2: whatever the other filters, giving a key a value made of commas
    and white space only is the same as leaving the key out. *)
Theorem blank_value_is_absent_key (q : gmap string string) (k v : string) :
  only_commas_and_spaces v = true ->
  build_query_and_params (<[k := v]> q) = build_query_and_params (delete k q).
Proof.
  intros Hv. apply build_query_and_params_ext. intros k' _.
  destruct (decide (k = k')) as [<-|Hne].
  - rewrite filter_values_delete_eq. unfold filter_values.
    rewrite lookup_insert_eq. by apply only_commas_and_spaces_values.
  - by rewrite filter_values_insert_ne, filter_values_delete_ne.
Qed.

Lemma blank_value_is_absent_key_witness :
  build_query_and_params (<["cluster" := " ,	, "]> {[ "block" := "Hajo" ]})
  = build_query_and_params (delete "cluster" {[ "block" := "Hajo" ]}).
Proof.
  apply blank_value_is_absent_key. reflexivity.
Defined.

(** X3: the [school_type] key changes the result exactly when one of
    its tokens has a category code; a value of unknown tokens only is the
    same as no [school_type] at all. *)
Theorem school_type_without_code_is_absent (q : gmap string string) :
  build_query_and_params q = build_query_and_params (delete "school_type" q)
  ↔ school_type_ids q = [].
Proof.
  assert (Hdel : school_type_ids (delete "school_type" q) = []).
  { unfold school_type_ids. by rewrite filter_values_delete_eq. }
  rewrite !build_query_and_params_closed_form.
  assert (Hin : in_clause_params (delete "school_type" q) = in_clause_params q
                ∧ in_clause_predicates (delete "school_type" q)
                  = in_clause_predicates q).
  { unfold in_clause_params, in_clause_predicates. simpl.
    by rewrite !filter_values_delete_ne. }
  destruct Hin as [Hps Hfs].
  unfold all_predicates, all_params. rewrite Hdel, Hps, Hfs. split.
  - intros Heq. apply (f_equal params_count) in Heq. simpl in Heq.
    rewrite !length_app, !length_map in Heq. simpl in Heq.
    apply nil_length_inv. lia.
  - by intros ->.
Qed.

Lemma school_type_without_code_is_absent_witness :
  build_query_and_params {[ "district" := "Kamrup"; "school_type" := "ME, hs" ]}
  = build_query_and_params
      (delete "school_type"
         {[ "district" := "Kamrup"; "school_type" := "ME, hs" ]}).
Proof.
  apply (proj2 (school_type_without_code_is_absent
           {[ "district" := "Kamrup"; "school_type" := "ME, hs" ]})).
  vm_compute. reflexivity.
Defined.

(** ** Placeholders and parameters *)

Lemma count_char_app c (a b : string) :
  count_char c (a +:+ b) = (count_char c a + count_char c b)%nat.
Proof.
  induction a as [|x a IH]; [reflexivity|].
  change (count_char c (String x (a +:+ b))
          = (count_char c (String x a) + count_char c b)%nat).
  simpl. rewrite IH. lia.
Qed.

Lemma count_char_join c sep (l : list string) :
  count_char c sep = O ->
  count_char c (Py.join sep l) = list_sum (map (count_char c) l).
Proof.
  intros Hsep. induction l as [|x l IH]; [reflexivity|].
  destruct l as [|y l].
  - simpl. lia.
  - change (Py.join sep (x :: y :: l)) with (x +:+ sep +:+ Py.join sep (y :: l)).
    rewrite !count_char_app, Hsep, IH. simpl. lia.
Qed.

Lemma count_percent_placeholders n : count_char "%" (placeholders n) = n.
Proof.
  unfold placeholders. rewrite count_char_join by reflexivity.
  induction n as [|n IH]; simpl; [reflexivity|]. by rewrite IH.
Qed.

Lemma count_percent_predicate_of field n :
  count_char "%" field = O ->
  list_sum (map (count_char "%") (predicate_of field n)) = n.
Proof.
  intros Hf. destruct n as [|n]; [reflexivity|].
  unfold predicate_of, in_predicate. simpl map. simpl list_sum.
  rewrite !count_char_app, Hf, count_percent_placeholders. simpl. lia.
Qed.

Lemma list_sum_map_app {A} (f : A -> nat) (l1 l2 : list A) :
  list_sum (map f (l1 ++ l2)) = (list_sum (map f l1) + list_sum (map f l2))%nat.
Proof. by rewrite map_app, list_sum_app. Qed.

Lemma count_percent_query_text_of (fs : list string) :
  count_char "%" (query_text_of fs) = list_sum (map (count_char "%") fs).
Proof.
  unfold query_text_of. destruct fs as [|f fs]; [by vm_compute|].
  cbv [nonempty]. rewrite !count_char_app, count_char_join by reflexivity.
  assert (Hb : count_char "%" base_query = O) by (by vm_compute).
  assert (Ho : count_char "%" order_by_clause = O) by (by vm_compute).
  rewrite Hb, Ho. simpl. lia.
Qed.

(** X4: the query text has exactly as many [%] characters, each the
    start of one [%s] placeholder, as the parameter list has entries: the
    positional binding never runs short or over. *)
Theorem placeholders_match_params (q : gmap string string) :
  ∃ text ps,
    build_query_and_params q = Ok (text, ps)
    ∧ count_char "%" text = length ps.
Proof.
  exists (query_text_of (all_predicates q)), (all_params q).
  split; [apply build_query_and_params_closed_form|].
  rewrite count_percent_query_text_of.
  unfold all_predicates, all_params, in_clause_predicates, in_clause_params.
  simpl flat_map.
  rewrite !list_sum_map_app, !count_percent_predicate_of by reflexivity.
  rewrite !length_app, !length_map. simpl. lia.
Qed.

(** ** Splitting, trimming and joining *)

Lemma split_segment_no_sep sep (s x : string) :
  x ∈ Py.split sep s -> count_char sep x = O.
Proof.
  revert x. induction s as [|c s IH]; simpl; intros x Hx.
  - apply list_elem_of_singleton in Hx. by subst.
  - destruct (Ascii.eqb c sep) eqn:Hc.
    + apply elem_of_cons in Hx as [->|Hx]; [reflexivity|by apply IH].
    + destruct (Py.split sep s) as [|w ws].
      * apply list_elem_of_singleton in Hx. subst. simpl. by rewrite Hc.
      * apply elem_of_cons in Hx as [->|Hx].
        -- simpl. rewrite Hc. apply IH. by left.
        -- apply IH. by right.
Qed.

Lemma count_char_lstrip c s : (count_char c (Py.lstrip s) <= count_char c s)%nat.
Proof.
  induction s as [|x s IH]; simpl; [lia|].
  destruct (Py.isspace x); simpl; lia.
Qed.

Lemma count_char_rstrip c s : (count_char c (Py.rstrip s) <= count_char c s)%nat.
Proof.
  induction s as [|x s IH]; simpl; [lia|].
  destruct (Py.rstrip s) as [|y r]; simpl in *.
  - destruct (Py.isspace x); simpl; lia.
  - lia.
Qed.

Lemma count_char_strip c s : (count_char c (Py.strip s) <= count_char c s)%nat.
Proof.
  unfold Py.strip.
  pose proof (count_char_rstrip c (Py.lstrip s)).
  pose proof (count_char_lstrip c s). lia.
Qed.

Lemma rstrip_idempotent s : Py.rstrip (Py.rstrip s) = Py.rstrip s.
Proof.
  induction s as [|c s IH]; [reflexivity|].
  simpl. destruct (Py.rstrip s) as [|d r] eqn:Hr.
  - destruct (Py.isspace c) eqn:Hc; cbn [Py.rstrip]; [reflexivity|by rewrite Hc].
  - change (Py.rstrip (String c (String d r))) with
      (match Py.rstrip (String d r) with
       | EmptyString => if Py.isspace c then EmptyString else String c EmptyString
       | r' => String c r'
       end).
    by rewrite IH.
Qed.

Lemma lstrip_rstrip_lstrip s :
  Py.lstrip (Py.rstrip (Py.lstrip s)) = Py.rstrip (Py.lstrip s).
Proof.
  destruct (Py.lstrip s) as [|c r] eqn:Hl; [reflexivity|].
  apply lstrip_head in Hl. cbn [Py.rstrip].
  destruct (Py.rstrip r); rewrite ?Hl; cbn [Py.lstrip]; by rewrite Hl.
Qed.

(** Trimming twice is trimming once. *)
Lemma strip_idempotent s : Py.strip (Py.strip s) = Py.strip s.
Proof.
  unfold Py.strip. by rewrite lstrip_rstrip_lstrip, rstrip_idempotent.
Qed.

Lemma split_values_clean (v s : string) :
  s ∈ split_values v -> clean_param (PStr s).
Proof.
  unfold split_values. intros Hs.
  apply list_elem_of_In, in_map_iff in Hs as (x & <- & Hx).
  apply filter_In in Hx as [Hx Ht]. apply list_elem_of_In in Hx.
  apply split_segment_no_sep in Hx. simpl. split_and!.
  - by apply truthy_true.
  - apply strip_idempotent.
  - pose proof (count_char_strip "," x). lia.
Qed.

Lemma filter_values_clean (q : gmap string string) k :
  Forall clean_param (map PStr (filter_values q k)).
Proof.
  apply Forall_forall. intros p Hp.
  apply list_elem_of_In, in_map_iff in Hp as (s & <- & Hs).
  unfold filter_values in Hs. destruct (q !! k) as [v|]; [|done].
  apply split_values_clean with (v := v). by apply list_elem_of_In.
Qed.

Lemma school_type_ids_clean (q : gmap string string) :
  Forall clean_param (map PInt (school_type_ids q)).
Proof.
  apply Forall_forall. intros p Hp.
  apply list_elem_of_In, in_map_iff in Hp as (n & <- & Hn).
  unfold school_type_ids in Hn. apply list_elem_of_In in Hn.
  apply list_elem_of_omap in Hn as (t & _ & Ht).
  apply mappings_lookup in Ht.
  repeat (apply elem_of_cons in Ht as [[= -> ->]|Ht]; [simpl; lia|]).
  by apply elem_of_nil in Ht.
Qed.

(** X5: every bound parameter is clean. A text parameter is never
    empty, has no white space at either end and holds no comma; an
    integer parameter is a category code from 1 to 4. *)
Theorem params_are_clean (q : gmap string string) :
  ∃ text ps,
    build_query_and_params q = Ok (text, ps) ∧ Forall clean_param ps.
Proof.
  exists (query_text_of (all_predicates q)), (all_params q).
  split; [apply build_query_and_params_closed_form|].
  unfold all_params, in_clause_params. simpl flat_map.
  rewrite !Forall_app.
  split_and!; auto using filter_values_clean, school_type_ids_clean.
Qed.

Lemma split_no_sep sep (x : string) :
  count_char sep x = O -> Py.split sep x = [x].
Proof.
  induction x as [|c x IH]; simpl; [reflexivity|].
  destruct (Ascii.eqb c sep); simpl; [discriminate|].
  intros Hx. by rewrite IH.
Qed.

Lemma split_app_sep sep (x t : string) :
  count_char sep x = O ->
  Py.split sep (x +:+ String sep t) = x :: Py.split sep t.
Proof.
  induction x as [|c x IH]; intros Hx.
  - simpl. by rewrite Ascii.eqb_refl.
  - change (Py.split sep (String c (x +:+ String sep t))
            = String c x :: Py.split sep t).
    simpl in *. destruct (Ascii.eqb c sep); [discriminate|].
    by rewrite IH.
Qed.

Lemma split_join sep (l : list string) :
  l ≠ [] ->
  Forall (fun x => count_char sep x = O) l ->
  Py.split sep (Py.join (String sep "") l) = l.
Proof.
  intros Hne Hl. induction Hl as [|x l Hx Hl IH]; [done|].
  destruct l as [|y l].
  - simpl. by apply split_no_sep.
  - change (Py.join (String sep "") (x :: y :: l))
      with (x +:+ String sep (Py.join (String sep "") (y :: l))).
    rewrite split_app_sep by done. by rewrite IH.
Qed.

Lemma split_values_kept (l : list string) :
  Forall (fun s => clean_param (PStr s)) l ->
  map Py.strip (List.filter (fun v => Py.truthy (Py.strip v)) l) = l.
Proof.
  induction 1 as [|s l (Hne & Hs & _) _ IH]; [reflexivity|].
  simpl. rewrite Hs. destruct s; [done|]. simpl. by rewrite Hs, IH.
Qed.

Lemma split_values_join (l : list string) :
  Forall (fun s => clean_param (PStr s)) l ->
  split_values (Py.join "," l) = l.
Proof.
  intros Hl. destruct l as [|x l]; [reflexivity|].
  unfold split_values. rewrite split_join.
  - by apply split_values_kept.
  - done.
  - eapply Forall_impl; [exact Hl|]. by intros s (_ & _ & Hs).
Qed.

(** X6: the normalization of a value is a round trip. Joining the kept
    values with commas and submitting the text again under the same key
    gives the same kept values, hence the same query and parameters. *)
Theorem normalized_value_round_trip (q : gmap string string) (k v : string) :
  q !! k = Some v ->
  split_values (Py.join "," (split_values v)) = split_values v
  ∧ build_query_and_params (<[k := Py.join "," (split_values v)]> q)
    = build_query_and_params q.
Proof.
  intros Hk.
  assert (Hrt : split_values (Py.join "," (split_values v)) = split_values v).
  { apply split_values_join, Forall_forall. intros s Hs.
    by apply split_values_clean with (v := v). }
  split; [exact Hrt|].
  apply build_query_and_params_ext. intros k' _.
  destruct (decide (k = k')) as [<-|Hne].
  - unfold filter_values. by rewrite lookup_insert_eq, Hk.
  - by apply filter_values_insert_ne.
Qed.

Lemma normalized_value_round_trip_witness :
  build_query_and_params
    (<["district" := Py.join "," (split_values " Kamrup ,, Nalbari,")]>
       {[ "district" := " Kamrup ,, Nalbari,"; "school_type" := "HS" ]})
  = build_query_and_params
      {[ "district" := " Kamrup ,, Nalbari,"; "school_type" := "HS" ]}.
Proof.
  refine (proj2 (normalized_value_round_trip
            {[ "district" := " Kamrup ,, Nalbari,"; "school_type" := "HS" ]}
            "district" " Kamrup ,, Nalbari," _)).
  reflexivity.
Defined.

(** ** Letter case *)

Lemma lower_char_cases (c : ascii) :
  c = Py.lower_char c ∨ c = upper_of (Py.lower_char c).
Proof.
  destruct c as [[] [] [] [] [] [] [] []];
    first [left; reflexivity | right; reflexivity].
Qed.

Lemma lower_char_small_letter (d : ascii) :
  is_small_letter d = true ->
  Py.lower_char d = d ∧ Py.lower_char (upper_of d) = d.
Proof.
  destruct d as [[] [] [] [] [] [] [] []]; intros Hd;
    first [discriminate Hd | split; reflexivity].
Qed.

(** A text whose lower-case form is [t] spells [t]. *)
Lemma lower_spelling (s t : string) : Py.lower s = t -> spelling_of t s.
Proof.
  revert t. induction s as [|c s IH]; intros t <-; simpl; [exact I|].
  split; [apply lower_char_cases|by apply IH].
Qed.

(** A text that spells small letters has them as its lower-case form. *)
Lemma spelling_lower (s t : string) :
  all_small_letters t = true -> spelling_of t s -> Py.lower s = t.
Proof.
  revert s. induction t as [|d t IH]; intros [|c s]; simpl; try done.
  intros [Hd Ht]%andb_true_iff [Hc Hs].
  destruct (lower_char_small_letter d Hd) as [Hd1 Hd2].
  rewrite (IH s Ht Hs). by destruct Hc as [->| ->]; rewrite ?Hd1, ?Hd2.
Qed.

(** ** Further properties of the endpoint *)

Section EndpointProperties.

Variable B : Backend.
Variable C : Config.

Lemma key_differs_false_iff (key : option string) :
  key_differs C key = false ↔ key = Some (API_KEY C).
Proof.
  destruct key as [k|]; simpl; [|by split].
  rewrite negb_false_iff, String.eqb_eq. split; [by intros ->|by intros [= ->]].
Qed.

Lemma py_or_truthy (k : string) (b : option string) :
  k ≠ "" -> py_or (Some k) b = Some k.
Proof. by destruct k. Qed.

Lemma export_passes request :
  API_KEY_REQUIRED C
  && key_differs C (py_or (query_params request !! "apikey")
                          (headers request !! "x-api-key")) = false ->
  export B C request = export B (without_key_check C) request.
Proof. intros Hkey. unfold export. simpl. by rewrite Hkey. Qed.

Lemma export_ext request1 request2 :
  (∀ k, k ∈ recognized_keys ->
        filter_values (query_params request1) k
        = filter_values (query_params request2) k) ->
  query_params request1 !! "format" = query_params request2 !! "format" ->
  query_params request1 !! "apikey" = query_params request2 !! "apikey" ->
  headers request1 = headers request2 ->
  export B C request1 = export B C request2.
Proof.
  intros Hfilters Hformat Hkey Hheaders. unfold export, Py.get_default.
  rewrite (build_query_and_params_ext _ _ Hfilters).
  by rewrite Hformat, Hkey, Hheaders.
Qed.

End EndpointProperties.

(** X7: with the key check on, a request whose non-empty [apikey]
    query parameter is not the configured key is refused with the
    invalid-key reply and status 401 whatever its [x-api-key] header
    holds, and so is a request with no or an empty [apikey] parameter
    whose header is missing or wrong. The reply is the same on every
    backend: the database is not reached. *)
Theorem wrong_key_is_refused (B : Backend) (C : Config) (request : Request) :
  API_KEY_REQUIRED C = true ->
  (∃ k, query_params request !! "apikey" = Some k ∧ k ≠ "" ∧ k ≠ API_KEY C)
  ∨ ((query_params request !! "apikey" = None
      ∨ query_params request !! "apikey" = Some "")
     ∧ headers request !! "x-api-key" ≠ Some (API_KEY C)) ->
  export B C request = Ok invalid_key_reply.
Proof.
  intros Hreq Hkey. unfold export. rewrite Hreq. simpl.
  destruct (key_differs C _) eqn:Hdiff; [reflexivity|].
  apply key_differs_false_iff in Hdiff.
  destruct Hkey as [(k & Hq & Hne & Hk)|[Hq Hh]].
  - rewrite Hq, py_or_truthy in Hdiff by done. congruence.
  - by destruct Hq as [Hq|Hq]; rewrite Hq in Hdiff.
Qed.

Lemma wrong_key_is_refused_witness :
  export sample_backend keyed_config
    {| query_params := {[ "apikey" := "guess" ]};
       headers := {[ "x-api-key" := "s3cret" ]} |}
  = Ok invalid_key_reply.
Proof.
  apply wrong_key_is_refused; [reflexivity|].
  left. exists "guess". by repeat split.
Defined.

(** X8: a request that presents the configured key, as a non-empty
    [apikey] query parameter, or in the [x-api-key] header when the
    query parameter is missing or empty, is served exactly as if no key
    were required. *)
Theorem right_key_is_served (B : Backend) (C : Config) (request : Request) :
  (query_params request !! "apikey" = Some (API_KEY C) ∧ API_KEY C ≠ "")
  ∨ ((query_params request !! "apikey" = None
      ∨ query_params request !! "apikey" = Some "")
     ∧ headers request !! "x-api-key" = Some (API_KEY C)) ->
  export B C request = export B (without_key_check C) request.
Proof.
  intros Hkey. apply export_passes, andb_false_iff. right.
  apply key_differs_false_iff.
  destruct Hkey as [[Hq Hne]|[[Hq|Hq] Hh]]; rewrite Hq.
  - by apply py_or_truthy.
  - exact Hh.
  - exact Hh.
Qed.

Lemma right_key_is_served_witness :
  export sample_backend keyed_config
    {| query_params := {[ "apikey" := ""; "format" := "json" ]};
       headers := {[ "x-api-key" := "s3cret" ]} |}
  = export sample_backend (without_key_check keyed_config)
      {| query_params := {[ "apikey" := ""; "format" := "json" ]};
         headers := {[ "x-api-key" := "s3cret" ]} |}.
Proof.
  apply right_key_is_served. right. split; [by right|reflexivity].
Defined.

(** X9: with the key check off, the endpoint never looks at keys: the
    reply is that of the request without its [apikey] parameter and
    without any header. *)
Theorem key_check_off_ignores_keys
    (B : Backend) (C : Config) (request : Request) :
  API_KEY_REQUIRED C = false ->
  export B C request
  = export B C {| query_params := delete "apikey" (query_params request);
                  headers := ∅ |}.
Proof.
  intros Hoff. unfold export, Py.get_default. rewrite Hoff. simpl.
  rewrite lookup_delete_ne by done.
  rewrite (build_query_and_params_ext (delete "apikey" (query_params request))
             (query_params request)); [reflexivity|].
  intros k Hk. apply filter_values_delete_ne. intros <-.
  unfold recognized_keys in Hk.
  repeat (apply elem_of_cons in Hk as [Hk|Hk]; [discriminate Hk|]).
  by apply elem_of_nil in Hk.
Qed.

Lemma key_check_off_ignores_keys_witness :
  export sample_backend open_config
    {| query_params := {[ "apikey" := "guess"; "district" := "Kamrup" ]};
       headers := {[ "x-api-key" := "other" ]} |}
  = export sample_backend open_config
      {| query_params :=
           delete "apikey" {[ "apikey" := "guess"; "district" := "Kamrup" ]};
         headers := ∅ |}.
Proof.
  refine (key_check_off_ignores_keys sample_backend open_config
            {| query_params := {[ "apikey" := "guess"; "district" := "Kamrup" ]};
               headers := {[ "x-api-key" := "other" ]} |} _).
  reflexivity.
Defined.

(** X10: a failure of the database is reported, never masked. When
    the key check passes, a connection that fails with a connector error
    gives the 500 reply with the detail [Failed to connect to database: ]
    followed by the cause; a connection that fails with any other
    exception gives the 500 reply with the text of that exception,
    without the prefix; a failed read gives the 500 reply with the
    cause; and a failed close after a successful read also gives the 500
    reply, the frame that was read being dropped. This holds for every
    format. *)
Theorem database_failure_is_reported
    (B : Backend) (C : Config) (request : Request)
    (sql : string) (ps : list param) (e : string) :
  API_KEY_REQUIRED C
  && key_differs C (py_or (query_params request !! "apikey")
                          (headers request !! "x-api-key")) = false ->
  build_query_and_params (query_params request) = Ok (sql, ps) ->
  (mysql_connect B = inl (ConnectorError e) ->
   export B C request
   = Ok (database_error_reply ("Failed to connect to database: " +:+ e)))
  ∧ (mysql_connect B = inl (OtherException e) ->
     export B C request = Ok (database_error_reply e))
  ∧ (∀ conn, mysql_connect B = inr conn ->
       read_sql B sql conn ps = inl e ->
       export B C request = Ok (database_error_reply e))
  ∧ (∀ conn df, mysql_connect B = inr conn ->
       read_sql B sql conn ps = inr df ->
       conn_close B conn = inl e ->
       export B C request = Ok (database_error_reply e)).
Proof.
  intros Hkey Hsql. unfold export, run_query, get_connection.
  rewrite Hkey, Hsql. split_and!.
  - by intros ->.
  - by intros ->.
  - by intros conn -> ->.
  - by intros conn df -> -> ->.
Qed.

Lemma database_failure_is_reported_witness :
  export (faulty_backend CloseFails "MySQL Connection not available")
    open_config (with_format "json" bare_request)
  = Ok (database_error_reply "MySQL Connection not available").
Proof.
  refine (proj2 (proj2 (proj2 (database_failure_is_reported
            (faulty_backend CloseFails "MySQL Connection not available")
            open_config (with_format "json" bare_request)
            (query_text_of []) [] "MySQL Connection not available" _ _)))
          tt [["Kamrup"; "LP"]; ["Nalbari"; "HS"]] _ _ _).
  - reflexivity.
  - vm_compute. reflexivity.
  - reflexivity.
  - reflexivity.
  - reflexivity.
Defined.

(** The two ways a connection fails, on the sample backend. *)
Example connector_error_is_prefixed :
  export (faulty_backend ConnectFails "2003: Can't connect to MySQL server")
    open_config bare_request
  = Ok (database_error_reply
          "Failed to connect to database: 2003: Can't connect to MySQL server").
Proof. vm_compute. reflexivity. Qed.

Example other_exception_is_not_prefixed :
  export (faulty_backend ConnectBreaks "Python int too large to convert to C int")
    open_config bare_request
  = Ok (database_error_reply "Python int too large to convert to C int").
Proof. vm_compute. reflexivity. Qed.

(** X11: the endpoint raises on no request. Every request gets one of
    four replies: the invalid-key reply, a database-error reply, the
    records of a frame, or the CSV attachment of a frame in one chunk. *)
Theorem export_never_raises (B : Backend) (C : Config) (request : Request) :
  ∃ reply,
    export B C request = Ok reply
    ∧ (reply = invalid_key_reply
       ∨ (∃ e, reply = database_error_reply e)
       ∨ (∃ df, reply = RecordsReply (to_dict_records B df))
       ∨ (∃ df, reply = csv_reply df)).
Proof.
  unfold export. destruct (_ && _); [eauto 10|].
  rewrite build_query_and_params_closed_form.
  destruct (run_query _ _ _) as [e|df]; [eauto 10|].
  destruct (String.eqb _ _); eauto 10.
Qed.

(** X12: a query parameter that is neither a filter key nor [format]
    nor [apikey] has no effect on the reply. *)
Theorem unrecognized_query_param_has_no_effect
    (B : Backend) (C : Config) (request : Request) (k v : string) :
  k ∉ recognized_keys -> k ≠ "format" -> k ≠ "apikey" ->
  export B C (with_query_param k v request) = export B C request.
Proof.
  intros Hk Hformat Hkey. apply export_ext; simpl.
  - intros k' Hk'. apply filter_values_insert_ne. by intros ->.
  - by apply lookup_insert_ne.
  - by apply lookup_insert_ne.
  - reflexivity.
Qed.

Lemma unrecognized_query_param_has_no_effect_witness :
  export sample_backend keyed_config
    (with_query_param "Format" "json" bare_request)
  = export sample_backend keyed_config bare_request.
Proof.
  apply unrecognized_query_param_has_no_effect; [|discriminate..].
  unfold recognized_keys. rewrite !not_elem_of_cons.
  repeat split; [discriminate..|apply not_elem_of_nil].
Defined.

(** X13: when the key check passes and the query succeeds, the reply
    is the records of the frame exactly when the format spells [json] in
    some mix of small and capital letters, and the CSV attachment for
    every other format. *)
Theorem records_exactly_for_json_spellings
    (B : Backend) (C : Config) (request : Request)
    (sql : string) (ps : list param) (df : DataFrame B) (fmt : string) :
  API_KEY_REQUIRED C
  && key_differs C (py_or (query_params request !! "apikey")
                          (headers request !! "x-api-key")) = false ->
  build_query_and_params (query_params request) = Ok (sql, ps) ->
  run_query B sql ps = inr df ->
  (spelling_of "json" fmt ->
   export B C (with_format fmt request) = Ok (RecordsReply (to_dict_records B df)))
  ∧ (¬ spelling_of "json" fmt ->
     export B C (with_format fmt request) = Ok (csv_reply df)).
Proof.
  intros Hkey Hsql Hdf. rewrite export_with_format. unfold export_as.
  rewrite Hkey, Hsql, Hdf.
  destruct (String.eqb (Py.lower fmt) "json") eqn:Hfmt.
  - apply String.eqb_eq, lower_spelling in Hfmt. by split.
  - apply String.eqb_neq in Hfmt. split; [|done].
    intros Hs. by apply spelling_lower in Hs.
Qed.

Lemma records_exactly_for_json_spellings_witness :
  export sample_backend open_config (with_format "jSoN" bare_request)
  = Ok (@RecordsReply sample_backend [["Kamrup"; "LP"]; ["Nalbari"; "HS"]]).
Proof.
  refine (proj1 (records_exactly_for_json_spellings
            sample_backend open_config bare_request
            (query_text_of []) [] [["Kamrup"; "LP"]; ["Nalbari"; "HS"]] "jSoN"
            _ _ _) _).
  - reflexivity.
  - vm_compute. reflexivity.
  - reflexivity.
  - vm_compute. auto 10.
Defined.

(** X14: the key check is on exactly when the environment variable
    [API_KEY_REQUIRED] is set to a text that spells [true] in some mix
    of small and capital letters; unset, or set to anything else such as
    [1] or [yes], it is off. *)
Theorem key_check_on_exactly_for_true (environ : gmap string string) :
  API_KEY_REQUIRED (load_config environ) = true
  ↔ ∃ v, environ !! "API_KEY_REQUIRED" = Some v ∧ spelling_of "true" v.
Proof.
  unfold load_config, Py.get_default. cbn [API_KEY_REQUIRED].
  destruct (environ !! "API_KEY_REQUIRED") as [v|].
  - rewrite String.eqb_eq. split.
    + intros Hv. exists v. split; [reflexivity|by apply lower_spelling].
    + intros (v' & [= <-] & Hv). by apply spelling_lower.
  - split; [discriminate|]. by intros (v & Hv & _).
Qed.

Lemma key_check_on_exactly_for_true_witness :
  API_KEY_REQUIRED (load_config {[ "API_KEY_REQUIRED" := "True" ]}) = true.
Proof.
  apply (proj2 (key_check_on_exactly_for_true
                  {[ "API_KEY_REQUIRED" := "True" ]})).
  exists "True". split; [reflexivity|vm_compute; auto 10].
Defined.

(** X15: a request without a [format] parameter is served as [csv]. *)
Theorem missing_format_is_csv (B : Backend) (C : Config) (request : Request) :
  query_params request !! "format" = None ->
  export B C request = export B C (with_format "csv" request).
Proof.
  intros Hformat. rewrite export_with_format.
  unfold export, export_as, Py.get_default. by rewrite Hformat.
Qed.

Lemma missing_format_is_csv_witness :
  export sample_backend open_config
    {| query_params := {[ "district" := "Kamrup" ]}; headers := ∅ |}
  = export sample_backend open_config
      (with_format "csv"
         {| query_params := {[ "district" := "Kamrup" ]}; headers := ∅ |}).
Proof.
  apply missing_format_is_csv. reflexivity.
Defined.

Lemma split_nonempty sep (s : string) : Py.split sep s ≠ [].
Proof.
  destruct s as [|c s]; simpl; [done|].
  destruct (Ascii.eqb c sep); [done|]. by destruct (Py.split sep s).
Qed.

Lemma split_app sep (a b : string) :
  Py.split sep (a +:+ String sep b) = (Py.split sep a ++ Py.split sep b)%list.
Proof.
  induction a as [|c a IH]; [simpl; by rewrite Ascii.eqb_refl|].
  change (Py.split sep (String c (a +:+ String sep b))
          = (Py.split sep (String c a) ++ Py.split sep b)%list).
  simpl. rewrite IH. destruct (Ascii.eqb c sep); [reflexivity|].
  pose proof (split_nonempty sep a) as Hne.
  by destruct (Py.split sep a).
Qed.

(** X16: value lists compose. The kept values of two texts put
    together with a comma are the kept values of the first followed by
    those of the second. *)
Theorem split_values_of_joined_texts (v1 v2 : string) :
  split_values (v1 +:+ "," +:+ v2) = (split_values v1 ++ split_values v2)%list.
Proof.
  unfold split_values.
  change (v1 +:+ "," +:+ v2) with (v1 +:+ String "," v2).
  by rewrite split_app, List.filter_app, map_app.
Qed.
